(** * Aurafox 1.1: the numeric toolkit (Random, Arithma, Vector2, Vector3)

    A shallow embedding of [src/aurafox-1.1.js], in two layers.

    The heap model.  Arrays and vectors live in a heap of objects addressed
    by locations; the methods are state-passing functions that may throw.
    Its numbers are exact rationals together with the three special values
    (a division by zero, the reduction [Math.max()] of no argument).  It
    settles what does not depend on rounding: which objects a method reads,
    copies and creates, which calls throw, which element a lookup reaches,
    how comparisons come out.

    Binary64.  The numbers of the language are binary64 floating-point
    numbers.  Module [Binary64] gives the numeric computations over the
    primitive floats, whose operations are those of IEEE 754; it settles
    the results that depend on rounding, on overflow or on the sign of
    zero.

    Randomness.  Every function of [Random] calls [Math.random()] at most
    once; the value drawn is the first parameter [u] of its embedding. *)

From Stdlib Require Import QArith Qround Lqa ZArith Lia Sorted Permutation.
From Stdlib Require Import Floats.
From Stdlib Require Uint63.
From stdpp Require Import base option list strings gmap.

Local Open Scope Q_scope.

(** ** Numbers *)

Inductive num : Type :=
  | Fin (q : Q)
  | PInf
  | NInf
  | NaN.

(** The infinity whose sign is that of a comparison with zero; [Eq] is the
    indeterminate form. *)
Definition inf_signed (c : comparison) : num :=
  match c with
  | Gt => PInf
  | Lt => NInf
  | Eq => NaN
  end.

Definition nneg (x : num) : num :=
  match x with
  | Fin q => Fin (- q)
  | PInf => NInf
  | NInf => PInf
  | NaN => NaN
  end.

(** [x + y] on numbers. *)
Definition nadd (x y : num) : num :=
  match x, y with
  | NaN, _ | _, NaN => NaN
  | Fin a, Fin b => Fin (a + b)
  | PInf, NInf | NInf, PInf => NaN
  | PInf, _ | _, PInf => PInf
  | NInf, _ | _, NInf => NInf
  end.

(** [x - y] *)
Definition nsub (x y : num) : num := nadd x (nneg y).

(** [x * y] *)
Definition nmul (x y : num) : num :=
  match x, y with
  | NaN, _ | _, NaN => NaN
  | Fin a, Fin b => Fin (a * b)
  | Fin a, PInf | PInf, Fin a => inf_signed (a ?= 0)
  | Fin a, NInf | NInf, Fin a => inf_signed (CompOpp (a ?= 0))
  | PInf, PInf | NInf, NInf => PInf
  | PInf, NInf | NInf, PInf => NInf
  end.

(** [x / y]: a finite number over zero is an infinity of its sign, and
    [0 / 0] is [NaN]. *)
Definition ndiv (x y : num) : num :=
  match x, y with
  | NaN, _ | _, NaN => NaN
  | Fin a, Fin b => if Qeq_bool b 0 then inf_signed (a ?= 0) else Fin (a / b)
  | Fin _, _ => Fin 0
  | PInf, Fin b => match b ?= 0 with Lt => NInf | _ => PInf end
  | NInf, Fin b => match b ?= 0 with Lt => PInf | _ => NInf end
  | _, _ => NaN
  end.

(** [x < y]: false as soon as an operand is [NaN]. *)
Definition nlt (x y : num) : bool :=
  match x, y with
  | NaN, _ | _, NaN => false
  | Fin a, Fin b => match a ?= b with Lt => true | _ => false end
  | NInf, NInf | PInf, _ | _, NInf => false
  | NInf, _ | _, PInf => true
  end.

(** [x > y] *)
Definition ngt (x y : num) : bool := nlt y x.

(** [x === y] on numbers. *)
Definition nstrict_eq (x y : num) : bool :=
  match x, y with
  | Fin a, Fin b => Qeq_bool a b
  | PInf, PInf | NInf, NInf => true
  | _, _ => false
  end.

(** Rounding toward zero. *)
Definition Qtrunc (q : Q) : Z :=
  match (q ?= 0)%Q with Lt => Qceiling q | _ => Qfloor q end.

(** [x % y]: the remainder has the sign of the dividend. *)
Definition nrem (x y : num) : num :=
  match x, y with
  | Fin a, Fin b =>
      if Qeq_bool b 0 then NaN else Fin (a - b * inject_Z (Qtrunc (a / b)))
  | Fin a, (PInf | NInf) => Fin a
  | _, _ => NaN
  end.

(** [Math.floor(x)] *)
Definition Math_floor (x : num) : num :=
  match x with
  | Fin q => Fin (inject_Z (Qfloor q))
  | _ => x
  end.

(** The binary step of [Math.max] and of [Math.min]: [NaN] is contagious. *)
Definition nmax (x y : num) : num :=
  match x, y with
  | NaN, _ | _, NaN => NaN
  | _, _ => if nlt x y then y else x
  end.

Definition nmin (x y : num) : num :=
  match x, y with
  | NaN, _ | _, NaN => NaN
  | _, _ => if nlt y x then y else x
  end.

(** [Math.pow(x, n)] for a natural exponent. *)
Fixpoint Math_pow (x : num) (n : nat) : num :=
  match n with
  | O => Fin 1
  | S n' => nmul x (Math_pow x n')
  end.

Definition of_nat (n : nat) : num := Fin (inject_Z (Z.of_nat n)).

(** The property index a number denotes, when it is an array index. *)
Definition array_index (n : num) : option nat :=
  match n with
  | Fin q =>
      let z := Qfloor q in
      if Qeq_bool (inject_Z z) q && (0 <=? z)%Z then Some (Z.to_nat z) else None
  | _ => None
  end.

(** ** Errors and results *)

(** The error classes the module declares, and the engine's [TypeError]. *)
Inductive error : Type :=
  | TypeError
  | AuraError
  | AuraDOMError
  | AuraRandomError
  | AuraMathError
  | AuraCryptoError.

Inductive outcome (A : Type) : Type :=
  | Ok (a : A)
  | Throw (e : error).
Arguments Ok {A} a.
Arguments Throw {A} e.

Definition raises {A} (r : outcome A) : Prop :=
  match r with Ok _ => False | Throw _ => True end.

(** ** Random *)

Module Random.

(** [Math.random() * (max - min) + min] *)
Definition Range (u : Q) (min max : num) : num :=
  nadd (nmul (Fin u) (nsub max min)) min.

Definition RangeInt (u : Q) (min max : num) : num :=
  Math_floor (nadd (nmul (Fin u) (nsub max min)) min).

(** The shapes [typeof haystack] and [Array.isArray] tell apart. *)
Inductive haystack (A : Type) : Type :=
  | HArray (elems : list A)
  | HObject (props : list (string * A))
  | HNull
  | HString (s : string)
  | HOther.
Arguments HArray {A} elems.
Arguments HObject {A} props.
Arguments HNull {A}.
Arguments HString {A} s.
Arguments HOther {A}.

(** What [In] hands back: [undefined], an element or a string. *)
Inductive picked (A : Type) : Type :=
  | Undefined
  | Element (a : A)
  | Chars (s : string).
Arguments Undefined {A}.
Arguments Element {A} a.
Arguments Chars {A} s.

(** [xs[n]] *)
Definition at_index {A} (xs : list A) (n : num) : option A :=
  i ← array_index n; xs !! i.

(** [obj[key]]: the first property of that name. *)
Fixpoint get_prop {A} (props : list (string * A)) (key : string) : option A :=
  match props with
  | [] => None
  | (k, v) :: rest => if String.eqb k key then Some v else get_prop rest key
  end.

Definition of_option {A} (o : option A) : picked A :=
  match o with Some a => Element a | None => Undefined end.

(** [s.charAt(pos)]: the position is truncated, [NaN] counts as 0, and a
    position outside the string gives the empty string. *)
Definition charAt (s : string) (pos : num) : string :=
  match pos with
  | NaN => String.substring 0 1 s
  | PInf | NInf => EmptyString
  | Fin q =>
      let p := Qtrunc q in
      if (p <? 0)%Z then EmptyString else String.substring (Z.to_nat p) 1 s
  end.

Definition In {A} (u : Q) (h : haystack A) : outcome (picked A) :=
  match h with
  | HArray elems =>
      Ok (of_option
            (at_index elems (Math_floor (Range u (Fin 0) (of_nat (length elems))))))
  | HObject props =>
      let keys := map fst props in
      if nstrict_eq (of_nat (length keys)) (Fin 0) then Ok Undefined
      else
        let key :=
          match at_index keys (Math_floor (Range u (Fin 0) (of_nat (length keys)))) with
          | Some k => k
          | None => "undefined"%string
          end in
        Ok (of_option (get_prop props key))
  | HNull => Throw TypeError
  | HString s =>
      Ok (Chars (charAt s (Math_floor (Range u (Fin 0) (of_nat (String.length s))))))
  | HOther => Ok Undefined
  end.

(** [weights[i]] as an operand of [+=]: a missing weight is [undefined],
    which adds as [NaN]. *)
Definition weight_at (weights : list num) (i : nat) : num :=
  default NaN (weights !! i).

(** The scanning loop, entered at index [i] with [pending] the items from
    [i] on.  Running out of items is falling off the end of the function. *)
Fixpoint scan {A} (weights : list num) (randomNum : num)
    (i : nat) (pending : list A) (cumulativeWeight : num) : option A :=
  match pending with
  | [] => None
  | item :: pending' =>
      let cumulativeWeight := nadd cumulativeWeight (weight_at weights i) in
      if nlt randomNum cumulativeWeight then Some item
      else scan weights randomNum (S i) pending' cumulativeWeight
  end.

Definition WeightedSelect {A} (u : Q) (items : list A) (weights : list num)
    : option A :=
  let totalWeight := foldl nadd (Fin 0) weights in
  let randomNum := nmul (Fin u) totalWeight in
  scan weights randomNum 0 items (Fin 0).

End Random.

(** ** The heap and the monad of methods *)

Definition loc : Type := positive.

(** The values that flow through the modelled methods. *)
Inductive value : Type :=
  | VUndef
  | VNum (n : num)
  | VRef (l : loc).

(** Heap objects: an array of numbers, or an instance of one of the two
    vector classes with the fields its constructor assigns. *)
Inductive obj : Type :=
  | Arr (elems : list num)
  | Vec2 (x y : num)
  | Vec3 (x y z : num).

Abbreviation heap := (gmap loc obj).

Definition M (A : Type) : Type := heap -> outcome A * heap.

Definition ret {A} (a : A) : M A := fun h => (Ok a, h).

Definition throw {A} (e : error) : M A := fun h => (Throw e, h).

Definition bind {A B} (m : M A) (k : A -> M B) : M B :=
  fun h =>
    match m h with
    | (Ok a, h') => k a h'
    | (Throw e, h') => (Throw e, h')
    end.

Notation "'let*' x ':=' m 'in' k" := (bind m (fun x => k))
  (at level 10, x name, m at level 100, k at level 200).

(** [new]: the object goes to a location the heap does not use. *)
Definition alloc (o : obj) : M loc :=
  fun h => let l := fresh (dom h) in (Ok l, <[l := o]> h).

Definition store (l : loc) (o : obj) : M unit :=
  fun h => (Ok tt, <[l := o]> h).

(** An own data property of an object, [None] when it has none of that
    name. *)
Definition own_prop (o : obj) (p : string) : option num :=
  match o with
  | Arr elems =>
      if String.eqb p "length" then Some (of_nat (length elems)) else None
  | Vec2 x y =>
      if String.eqb p "x" then Some x
      else if String.eqb p "y" then Some y else None
  | Vec3 x y z =>
      if String.eqb p "x" then Some x
      else if String.eqb p "y" then Some y
      else if String.eqb p "z" then Some z else None
  end.

(** [v.p] for a data property: reading from [undefined] throws, a number
    has no such property. *)
Definition get (v : value) (p : string) : M (option num) :=
  fun h =>
    match v with
    | VUndef => (Throw TypeError, h)
    | VNum _ => (Ok None, h)
    | VRef l =>
        match h !! l with
        | Some o => (Ok (own_prop o p), h)
        | None => (Throw TypeError, h)
        end
    end.

(** A property read used as an arithmetic operand: [undefined] is [NaN]. *)
Definition operand (o : option num) : num := default NaN o.

(** [ToNumber]: an object converts through its string form, which for an
    array of at most one number is that of its content. *)
Definition ToNumber (v : value) : M num :=
  fun h =>
    match v with
    | VUndef => (Ok NaN, h)
    | VNum n => (Ok n, h)
    | VRef l =>
        match h !! l with
        | Some (Arr []) => (Ok (Fin 0), h)
        | Some (Arr [n]) => (Ok n, h)
        | _ => (Ok NaN, h)
        end
    end.

(** *** Arrays *)

(** The elements of an array object; anything else has no [reduce], no
    [map], and is not iterable. *)
Definition Array_elems (array : value) : M (list num) :=
  fun h =>
    match array with
    | VRef l =>
        match h !! l with
        | Some (Arr elems) => (Ok elems, h)
        | _ => (Throw TypeError, h)
        end
    | _ => (Throw TypeError, h)
    end.

(** [array.reduce(f, init)] *)
Definition Array_reduce (array : value) (f : num -> num -> num) (init : num)
    : M num :=
  let* elems := Array_elems array in
  ret (foldl f init elems).

(** [[...array]]: a new array with the same elements. *)
Definition Array_spread (array : value) : M value :=
  let* elems := Array_elems array in
  let* l := alloc (Arr elems) in
  ret (VRef l).

(** [array.map(f)]: a new array. *)
Definition Array_map (array : value) (f : num -> num) : M value :=
  let* elems := Array_elems array in
  let* l := alloc (Arr (map f elems)) in
  ret (VRef l).

(** [array[i]] *)
Definition Array_at (array : value) (i : num) : M (option num) :=
  fun h =>
    match array with
    | VUndef => (Throw TypeError, h)
    | VNum _ => (Ok None, h)
    | VRef l =>
        match h !! l with
        | Some (Arr elems) => (Ok (Random.at_index elems i), h)
        | _ => (Ok None, h)
        end
    end.

(** Insertion of [x] in a sorted list: [x] goes after the elements the
    comparator puts before it, and before the rest. *)
Fixpoint sort_insert (cmp : num -> num -> num) (x : num) (sorted : list num)
    : list num :=
  match sorted with
  | [] => [x]
  | y :: rest =>
      if ngt (cmp x y) (Fin 0) then y :: sort_insert cmp x rest
      else x :: sorted
  end.

(** The order [Array.prototype.sort] produces for a consistent comparator:
    sorted by the comparator, elements that compare equal kept in their
    original order. *)
Definition sort_by (cmp : num -> num -> num) (elems : list num) : list num :=
  foldr (sort_insert cmp) [] elems.

(** [array.sort(cmp)]: sorts the array in place and returns it. *)
Definition Array_sort (array : value) (cmp : num -> num -> num) : M value :=
  let* elems := Array_elems array in
  match array with
  | VRef l =>
      let* _ := store l (Arr (sort_by cmp elems)) in
      ret array
  | _ => throw TypeError
  end.

(** [Math.max(...array)] and [Math.min(...array)].  (An engine refuses a
    call with more arguments than it can take; that limit on the length of
    the array is outside the model.) *)
Definition Math_max_of (array : value) : M num :=
  let* elems := Array_elems array in
  ret (foldl nmax NInf elems).

Definition Math_min_of (array : value) : M num :=
  let* elems := Array_elems array in
  ret (foldl nmin PInf elems).

(** [Math.max(a, b, ...)] and [Math.min(a, b, ...)] on explicit arguments. *)
Definition Math_max (args : list num) : num := foldl nmax NInf args.

Definition Math_min (args : list num) : num := foldl nmin PInf args.

(** ** Arithma *)

Module Arithma.
Section Arithma.

(** [Math.sqrt], which no exact rational function computes. *)
Variable Math_sqrt : num -> num.

Definition Clamp (value min max : num) : num :=
  Math_max [min; Math_min [value; max]].

Definition Mean (array : value) : M num :=
  let* total := Array_reduce array (fun sum value => nadd sum value) (Fin 0) in
  let* len := get array "length" in
  ret (ndiv total (operand len)).

Definition Median (array : value) : M (option num) :=
  let* copy := Array_spread array in
  let* sorted := Array_sort copy (fun a b => nsub a b) in
  let* len := get sorted "length" in
  let mid := Math_floor (ndiv (operand len) (Fin 2)) in
  if nstrict_eq (nrem (operand len) (Fin 2)) (Fin 0) then
    let* lo := Array_at sorted (nsub mid (Fin 1)) in
    let* hi := Array_at sorted mid in
    ret (Some (ndiv (nadd (operand lo) (operand hi)) (Fin 2)))
  else Array_at sorted mid.

Definition Variance (array : value) : M num :=
  let* mean := Mean array in
  let* squares := Array_map array (fun x => Math_pow (nsub x mean) 2) in
  Mean squares.

Definition StandardDeviation (array : value) : M num :=
  let* variance := Variance array in
  ret (Math_sqrt variance).

Definition Max (array : value) : M num := Math_max_of array.

Definition Min (array : value) : M num := Math_min_of array.

Definition Sum (array : value) : M num :=
  Array_reduce array (fun sum value => nadd sum value) (Fin 0).

(** The statistics by name. *)
Inductive statistic : Type :=
  | SMean | SMedian | SVariance | SStandardDeviation | SMax | SMin | SSum.

Definition apply (s : statistic) (array : value) : M (option num) :=
  match s with
  | SMean => let* r := Mean array in ret (Some r)
  | SMedian => Median array
  | SVariance => let* r := Variance array in ret (Some r)
  | SStandardDeviation => let* r := StandardDeviation array in ret (Some r)
  | SMax => let* r := Max array in ret (Some r)
  | SMin => let* r := Min array in ret (Some r)
  | SSum => let* r := Sum array in ret (Some r)
  end.

End Arithma.
End Arithma.

(** ** Method calls on vector instances *)

(** A method takes its receiver and the argument list of the call. *)
Definition method : Type := loc -> list value -> M value.

(** The [i]-th argument of a call; a missing argument is [undefined]. *)
Definition arg (i : nat) (args : list value) : value :=
  default VUndef (args !! i).

(** Property names are case-sensitive. *)
Fixpoint lookup_method (table : list (string * method)) (name : string)
    : option method :=
  match table with
  | [] => None
  | (n, m) :: rest => if String.eqb n name then Some m else lookup_method rest name
  end.

(** [this.name(args)] for a receiver whose class has the methods [table]:
    the property is looked up on the object, then among the methods of its
    class; calling a number, or [undefined] when the name is found nowhere,
    throws a [TypeError]. *)
Definition invoke (table : list (string * method)) (this : loc)
    (name : string) (args : list value) : M value :=
  fun h =>
    match h !! this with
    | None => (Throw TypeError, h)
    | Some o =>
        match own_prop o name with
        | Some _ => (Throw TypeError, h)
        | None =>
            match lookup_method table name with
            | Some m => m this args h
            | None => (Throw TypeError, h)
            end
        end
    end.

(** ** Vector2 *)

Module Vector2.
Section Vector2.

Variable Math_sqrt : num -> num.

(** [new Vector2(x, y)] *)
Definition new (x y : num) : M loc := alloc (Vec2 x y).

Definition Add (this : loc) (vector : value) : M loc :=
  let* tx := get (VRef this) "x" in
  let* vx := get vector "x" in
  let* ty := get (VRef this) "y" in
  let* vy := get vector "y" in
  new (nadd (operand tx) (operand vx)) (nadd (operand ty) (operand vy)).

Definition Subtract (this : loc) (vector : value) : M loc :=
  let* tx := get (VRef this) "x" in
  let* vx := get vector "x" in
  let* ty := get (VRef this) "y" in
  let* vy := get vector "y" in
  new (nsub (operand tx) (operand vx)) (nsub (operand ty) (operand vy)).

Definition Multiply (this : loc) (scalar : value) : M loc :=
  let* tx := get (VRef this) "x" in
  let* ty := get (VRef this) "y" in
  let* s := ToNumber scalar in
  new (nmul (operand tx) s) (nmul (operand ty) s).

Definition Divide (this : loc) (scalar : value) : M loc :=
  let* tx := get (VRef this) "x" in
  let* ty := get (VRef this) "y" in
  let* s := ToNumber scalar in
  new (ndiv (operand tx) s) (ndiv (operand ty) s).

Definition Length (this : loc) : M num :=
  let* tx := get (VRef this) "x" in
  let* ty := get (VRef this) "y" in
  ret (Math_sqrt (nadd (Math_pow (operand tx) 2) (Math_pow (operand ty) 2))).

Definition Dot (this : loc) (vector : value) : M num :=
  let* tx := get (VRef this) "x" in
  let* vx := get vector "x" in
  let* ty := get (VRef this) "y" in
  let* vy := get vector "y" in
  ret (nadd (nmul (operand tx) (operand vx)) (nmul (operand ty) (operand vy))).

(** The methods of the class whose bodies call no method. *)
Definition members : list (string * method) :=
  [ ("Add"%string, fun this args => let* r := Add this (arg 0 args) in ret (VRef r));
    ("Subtract"%string, fun this args => let* r := Subtract this (arg 0 args) in ret (VRef r));
    ("Multiply"%string, fun this args => let* r := Multiply this (arg 0 args) in ret (VRef r));
    ("Divide"%string, fun this args => let* r := Divide this (arg 0 args) in ret (VRef r));
    ("Length"%string, fun this _ => let* r := Length this in ret (VNum r));
    ("Dot"%string, fun this args => let* r := Dot this (arg 0 args) in ret (VNum r)) ].

(** [Normalize] calls [this.length()] and [this.divide(len)].  Its two
    callees are looked up among the other methods of the class; the
    whole class resolves every name but [Normalize] the same way
    ([Vector2_prototype_lookup]). *)
Definition Normalize (this : loc) : M value :=
  let* len := invoke members this "length" [] in
  let* n := ToNumber len in
  if ngt n (Fin 0) then invoke members this "divide" [len]
  else let* r := new (Fin 0) (Fin 0) in ret (VRef r).

(** All the methods of the class. *)
Definition prototype : list (string * method) :=
  members ++ [ ("Normalize"%string, fun this _ => Normalize this) ].

End Vector2.
End Vector2.

(** ** Vector3 *)

Module Vector3.
Section Vector3.

Variable Math_sqrt : num -> num.

(** [new Vector3(x, y, z)] *)
Definition new (x y z : num) : M loc := alloc (Vec3 x y z).

Definition Add (this : loc) (vector : value) : M loc :=
  let* tx := get (VRef this) "x" in
  let* vx := get vector "x" in
  let* ty := get (VRef this) "y" in
  let* vy := get vector "y" in
  let* tz := get (VRef this) "z" in
  let* vz := get vector "z" in
  new (nadd (operand tx) (operand vx)) (nadd (operand ty) (operand vy))
      (nadd (operand tz) (operand vz)).

Definition Subtract (this : loc) (vector : value) : M loc :=
  let* tx := get (VRef this) "x" in
  let* vx := get vector "x" in
  let* ty := get (VRef this) "y" in
  let* vy := get vector "y" in
  let* tz := get (VRef this) "z" in
  let* vz := get vector "z" in
  new (nsub (operand tx) (operand vx)) (nsub (operand ty) (operand vy))
      (nsub (operand tz) (operand vz)).

Definition Multiply (this : loc) (scalar : value) : M loc :=
  let* tx := get (VRef this) "x" in
  let* ty := get (VRef this) "y" in
  let* tz := get (VRef this) "z" in
  let* s := ToNumber scalar in
  new (nmul (operand tx) s) (nmul (operand ty) s) (nmul (operand tz) s).

Definition Divide (this : loc) (scalar : value) : M loc :=
  let* tx := get (VRef this) "x" in
  let* ty := get (VRef this) "y" in
  let* tz := get (VRef this) "z" in
  let* s := ToNumber scalar in
  new (ndiv (operand tx) s) (ndiv (operand ty) s) (ndiv (operand tz) s).

Definition Length (this : loc) : M num :=
  let* tx := get (VRef this) "x" in
  let* ty := get (VRef this) "y" in
  let* tz := get (VRef this) "z" in
  ret (Math_sqrt (nadd (nadd (Math_pow (operand tx) 2) (Math_pow (operand ty) 2))
                       (Math_pow (operand tz) 2))).

Definition Dot (this : loc) (vector : value) : M num :=
  let* tx := get (VRef this) "x" in
  let* vx := get vector "x" in
  let* ty := get (VRef this) "y" in
  let* vy := get vector "y" in
  let* tz := get (VRef this) "z" in
  let* vz := get vector "z" in
  ret (nadd (nadd (nmul (operand tx) (operand vx)) (nmul (operand ty) (operand vy)))
            (nmul (operand tz) (operand vz))).

Definition Cross (this : loc) (vector : value) : M loc :=
  let* tx := get (VRef this) "x" in
  let* ty := get (VRef this) "y" in
  let* tz := get (VRef this) "z" in
  let* vx := get vector "x" in
  let* vy := get vector "y" in
  let* vz := get vector "z" in
  new (nsub (nmul (operand ty) (operand vz)) (nmul (operand tz) (operand vy)))
      (nsub (nmul (operand tz) (operand vx)) (nmul (operand tx) (operand vz)))
      (nsub (nmul (operand tx) (operand vy)) (nmul (operand ty) (operand vx))).

(** The methods of the class whose bodies call no method. *)
Definition members : list (string * method) :=
  [ ("Add"%string, fun this args => let* r := Add this (arg 0 args) in ret (VRef r));
    ("Subtract"%string, fun this args => let* r := Subtract this (arg 0 args) in ret (VRef r));
    ("Multiply"%string, fun this args => let* r := Multiply this (arg 0 args) in ret (VRef r));
    ("Divide"%string, fun this args => let* r := Divide this (arg 0 args) in ret (VRef r));
    ("Length"%string, fun this _ => let* r := Length this in ret (VNum r));
    ("Dot"%string, fun this args => let* r := Dot this (arg 0 args) in ret (VNum r));
    ("Cross"%string, fun this args => let* r := Cross this (arg 0 args) in ret (VRef r)) ].

(** As in [Vector2]: the callees are [this.length()] and
    [this.divide(len)]. *)
Definition Normalize (this : loc) : M value :=
  let* len := invoke members this "length" [] in
  let* n := ToNumber len in
  if ngt n (Fin 0) then invoke members this "divide" [len]
  else let* r := new (Fin 0) (Fin 0) (Fin 0) in ret (VRef r).

(** All the methods of the class. *)
Definition prototype : list (string * method) :=
  members ++ [ ("Normalize"%string, fun this _ => Normalize this) ].

End Vector3.
End Vector3.

(** ** The numeric results in binary64 *)

(** The functions whose result depends on how numbers round or overflow,
    over the binary64 numbers of the language itself (the primitive floats,
    with the operations of IEEE 754 rounded to nearest, ties to even).
    They are the pure computations of the methods: what is read, copied and
    allocated is in the heap model above and does not depend on rounding. *)

Module Binary64.

(** An integer of magnitude below 2^53 as a number. *)
Definition of_Z (z : Z) : float :=
  match z with
  | Zneg p => PrimFloat.opp (PrimFloat.of_uint63 (Uint63.of_Z (Zpos p)))
  | _ => PrimFloat.of_uint63 (Uint63.of_Z z)
  end.

(** [Math.floor(x)].  A finite number is [m * 2^e] with [m] below 2^53, up
    to its sign: with [e >= 0] it is an integer already, otherwise its
    floor is an integer of magnitude at most 2^53.  Zeros, infinities and
    [NaN] are returned as they are. *)
Definition Math_floor (x : float) : float :=
  match Prim2SF x with
  | S754_finite negative m e =>
      if (0 <=? e)%Z then x
      else
        let whole := (Zpos m / 2 ^ (- e))%Z in
        let exact := (Zpos m mod 2 ^ (- e) =? 0)%Z in
        if negative then of_Z (- (if exact then whole else whole + 1))
        else of_Z whole
  | _ => x
  end.

Module Random.

(** [Math.random() * (max - min) + min] *)
Definition Range (u min max : float) : float :=
  (u * (max - min) + min)%float.

Definition RangeInt (u min max : float) : float :=
  Math_floor (u * (max - min) + min)%float.

(** [weights[i]] as an operand of [+=]: a missing weight is [undefined],
    which adds as [NaN]. *)
Definition weight_at (weights : list float) (i : nat) : float :=
  default PrimFloat.nan (weights !! i).

(** The scanning loop, entered at index [i] with [pending] the items from
    [i] on.  Running out of items is falling off the end of the function. *)
Fixpoint scan {A} (weights : list float) (randomNum : float)
    (i : nat) (pending : list A) (cumulativeWeight : float) : option A :=
  match pending with
  | [] => None
  | item :: pending' =>
      let cumulativeWeight := (cumulativeWeight + weight_at weights i)%float in
      if (randomNum <? cumulativeWeight)%float then Some item
      else scan weights randomNum (S i) pending' cumulativeWeight
  end.

Definition WeightedSelect {A} (u : float) (items : list A) (weights : list float)
    : option A :=
  let totalWeight := foldl PrimFloat.add 0%float weights in
  let randomNum := (u * totalWeight)%float in
  scan weights randomNum 0 items 0%float.

End Random.

Module Arithma.

(** A property read used as an arithmetic operand: [undefined] is [NaN]. *)
Definition operand (o : option float) : float := default PrimFloat.nan o.

(** [xs[i]] for an integer [i]: [undefined] outside the array. *)
Definition at_index (xs : list float) (i : Z) : option float :=
  if (i <? 0)%Z then None else xs !! Z.to_nat i.

(** The stable insertion that gives the order [Array.prototype.sort]
    produces with a comparator that orders the elements consistently: [x]
    goes after the elements the comparator puts before it. *)
Fixpoint sort_insert (cmp : float -> float -> float) (x : float)
    (sorted : list float) : list float :=
  match sorted with
  | [] => [x]
  | y :: rest =>
      if (0 <? cmp x y)%float then y :: sort_insert cmp x rest
      else x :: sorted
  end.

Definition sort_by (cmp : float -> float -> float) (elems : list float)
    : list float :=
  foldr (sort_insert cmp) [] elems.

(** [Median], on the elements of its argument.  The length of an array is
    an integer below 2^32: [sorted.length / 2], its [Math.floor] and
    [sorted.length % 2] are exact on it, and are taken over the integers. *)
Definition Median (array : list float) : option float :=
  let sorted := sort_by (fun a b => (a - b)%float) array in
  let len := Z.of_nat (length sorted) in
  let mid := (len / 2)%Z in
  if (len mod 2 =? 0)%Z then
    Some ((operand (at_index sorted (mid - 1)) + operand (at_index sorted mid)) / 2)%float
  else at_index sorted mid.

End Arithma.

Module Vector2.

Record t : Type := new { x : float; y : float }.

Definition Divide (this : t) (scalar : float) : t :=
  new (x this / scalar)%float (y this / scalar)%float.

Definition Dot (this vector : t) : float :=
  (x this * x vector + y this * y vector)%float.

End Vector2.

Module Vector3.

Record t : Type := new { x : float; y : float; z : float }.

Definition Divide (this : t) (scalar : float) : t :=
  new (x this / scalar)%float (y this / scalar)%float (z this / scalar)%float.

Definition Dot (this vector : t) : float :=
  (x this * x vector + y this * y vector + z this * z vector)%float.

End Vector3.

End Binary64.

(** * Notions the statements use *)

(** The cumulative weight the scan of [WeightedSelect] holds once it has
    added [weights[k]], as that loop accumulates it in binary64. *)
Fixpoint accumulated (weights : list float) (k : nat) : float :=
  match k with
  | O => (0 + Binary64.Random.weight_at weights 0)%float
  | S j => (accumulated weights j + Binary64.Random.weight_at weights (S j))%float
  end.

(** The cumulative weight the scan holds when it reaches index [i]. *)
Definition accumulated_before (weights : list float) (i : nat) : float :=
  match i with
  | O => 0%float
  | S j => accumulated weights j
  end.

(** The number [WeightedSelect] draws: [Math.random() * totalWeight]. *)
Definition drawn (u : float) (weights : list float) : float :=
  (u * foldl PrimFloat.add 0 weights)%float.

(** Index [k] is the first at which the drawn number is below the
    accumulated weight. *)
Definition first_exceeded (u : float) (weights : list float) (k : nat) : Prop :=
  (drawn u weights <? accumulated weights k)%float = true
  /\ forall j, (j < k)%nat -> (drawn u weights <? accumulated weights j)%float = false.

(** In the specification of a number: its sign is not set, or it is
    [NaN]. *)
Definition sign_clear (x : spec_float) : Prop :=
  match x with
  | S754_infinity true | S754_finite true _ _ => False
  | _ => True
  end.

(** Not below zero: a zero of either sign, a positive number or
    [+Infinity]. *)
Definition not_negative (x : float) : Prop := (0 <=? x)%float = true.

(** What a division by a zero makes of a component [x], as [r]: the sign of
    the result is that of [x] when the zero is [+0] and the opposite when
    it is [-0]; [0 / 0] is [NaN]. *)
Definition over_zero (negative_zero : bool) (x r : float) : Prop :=
  ((0 <? x)%float = true ->
     r = if negative_zero then PrimFloat.neg_infinity else PrimFloat.infinity)
  /\ ((x <? 0)%float = true ->
        r = if negative_zero then PrimFloat.infinity else PrimFloat.neg_infinity)
  /\ ((x =? 0)%float = true -> r = PrimFloat.nan).



(** The total of the weights, summed in index order as [reduce] does. *)
Definition total (ws : list Q) : Q := foldl Qplus 0 ws.

(** The value [Median] reads off the sorted copy. *)
Definition middle (sorted : list num) : option num :=
  let len := of_nat (length sorted) in
  let mid := Math_floor (ndiv len (Fin 2)) in
  if nstrict_eq (nrem len (Fin 2)) (Fin 0) then
    Some (ndiv (nadd (operand (Random.at_index sorted (nsub mid (Fin 1))))
                     (operand (Random.at_index sorted mid))) (Fin 2))
  else Random.at_index sorted mid.

(** The comparator [Median] sorts with. *)
Definition ascending (a b : num) : num := nsub a b.



(** A computation that leaves every object of the heap as it found it; it
    may only add objects. *)
Definition grows {A : Type} (m : M A) : Prop :=
  forall (h : heap) (l : loc) (o : obj),
    h !! l = Some o -> (m h).2 !! l = Some o.

(** * Properties *)

(** ** Sanity checks on concrete inputs *)

Example Range_half : Random.Range (1#2) (Fin 2) (Fin 4) = Fin ((1#2) * (4 + - 2) + 2).
Proof. reflexivity. Qed.

Example Median_4 :
  (Arithma.Median (VRef 1%positive) {[ 1%positive := Arr [Fin 4; Fin 1; Fin 3; Fin 2] ]}).1
  = Ok (Some (Fin (5 # 2))).
Proof. vm_compute. reflexivity. Qed.

Example Median_3 :
  (Arithma.Median (VRef 1%positive) {[ 1%positive := Arr [Fin 3; Fin 1; Fin 2] ]}).1
  = Ok (Some (Fin 2)).
Proof. vm_compute. reflexivity. Qed.

Example Mean_246 :
  (Arithma.Mean (VRef 1%positive) {[ 1%positive := Arr [Fin 2; Fin 4; Fin 6] ]}).1
  = Ok (Fin (12 # 3)).
Proof. vm_compute. reflexivity. Qed.

Example Dot_123_456 :
  (Vector3.Dot 1%positive (VRef 2%positive)
     (<[ 2%positive := Vec3 (Fin 4) (Fin 5) (Fin 6) ]>
        {[ 1%positive := Vec3 (Fin 1) (Fin 2) (Fin 3) ]})).1
  = Ok (Fin 32).
Proof. vm_compute. reflexivity. Qed.

Example WeightedSelect_ab :
  Random.WeightedSelect (1#4) ["a"; "b"]%string [Fin 1; Fin 3] = Some "b"%string
  /\ Random.WeightedSelect (1#5) ["a"; "b"]%string [Fin 1; Fin 3] = Some "a"%string.
Proof. split; reflexivity. Qed.

(** ** Random: the range and the picked index *)








(** C4 (the code at the three empty inputs).  [In] raises on none of them;
    it returns [undefined] for the empty array and for the object without
    keys, and the empty string, not [undefined], for the empty string:
    [charAt] of a position outside the string is the empty string. *)
Theorem In_empty (A : Type) (u : Q) :
  Random.In (A := A) u (Random.HArray []) = Ok Random.Undefined
  /\ Random.In (A := A) u (Random.HObject []) = Ok Random.Undefined
  /\ Random.In (A := A) u (Random.HString EmptyString) = Ok (Random.Chars EmptyString)
  /\ Random.In (A := A) u (Random.HString EmptyString) <> Ok Random.Undefined.
Proof.
  repeat split.
  - unfold Random.In, Random.at_index.
    destruct (array_index _); reflexivity.
  - unfold Random.In. f_equal. f_equal. unfold Random.charAt.
    destruct (Math_floor _) as [q| | |]; try reflexivity.
    destruct (Qtrunc q <? 0)%Z; [reflexivity|].
    destruct (Z.to_nat (Qtrunc q)); reflexivity.
  - discriminate.
Qed.

(** ** Random: weighted selection *)

Lemma foldl_nadd_Fin (ws : list Q) (c : Q) :
  foldl nadd (Fin c) (map Fin ws) = Fin (foldl Qplus c ws).
Proof. revert c. induction ws as [|w ws IH]; intros c; simpl; [reflexivity | apply IH]. Qed.

Lemma nlt_Fin (a b : Q) : nlt (Fin a) (Fin b) = true <-> a < b.
Proof.
  simpl. rewrite Qlt_alt. destruct (a ?= b); split; congruence.
Qed.

(** ** The heap: fresh locations and reads *)

Lemma fresh_unused (h : heap) : h !! fresh (dom h) = None.
Proof. apply not_elem_of_dom. apply is_fresh. Qed.

Lemma fresh_other (h : heap) (l : loc) (o : obj) :
  h !! l = Some o -> fresh (dom h) <> l.
Proof. intros Hl E. rewrite <- E, fresh_unused in Hl. discriminate. Qed.

Lemma insert_fresh_keeps (h : heap) (l : loc) (o o' : obj) :
  h !! l = Some o -> <[fresh (dom h) := o']> h !! l = Some o.
Proof.
  intros Hl. rewrite lookup_insert_ne; [exact Hl | exact (fresh_other h l o Hl)].
Qed.

(** Reading the elements either finds an array or throws, and never
    touches the heap. *)
Lemma Array_elems_cases (array : value) (h : heap) :
  (exists (a : loc) (elems : list num),
      array = VRef a /\ h !! a = Some (Arr elems)
      /\ Array_elems array h = (Ok elems, h))
  \/ Array_elems array h = (Throw TypeError, h).
Proof.
  destruct array as [|n|a]; simpl; auto.
  destruct (h !! a) as [[elems|x y|x y z]|] eqn:E; auto.
  left. exists a, elems. auto.
Qed.

Lemma Array_elems_Arr (a : loc) (elems : list num) (h : heap) :
  h !! a = Some (Arr elems) -> Array_elems (VRef a) h = (Ok elems, h).
Proof. intros E. simpl. rewrite E. reflexivity. Qed.

(** ** Arithma on an array *)

Lemma Mean_Arr (a : loc) (elems : list num) (h : heap) :
  h !! a = Some (Arr elems) ->
  Arithma.Mean (VRef a) h
  = (Ok (ndiv (foldl nadd (Fin 0) elems) (of_nat (length elems))), h).
Proof.
  intros E. unfold Arithma.Mean, Array_reduce, bind, ret.
  rewrite (Array_elems_Arr a elems h E). simpl. rewrite E. reflexivity.
Qed.

Lemma Median_Arr (a : loc) (elems : list num) (h : heap) :
  h !! a = Some (Arr elems) ->
  Arithma.Median (VRef a) h
  = (Ok (middle (sort_by ascending elems)),
     <[fresh (dom h) := Arr (sort_by ascending elems)]> h).
Proof.
  intros E. unfold Arithma.Median, Array_spread, Array_sort, bind, ret, alloc, store.
  rewrite (Array_elems_Arr a elems h E).
  rewrite (Array_elems_Arr (fresh (dom h)) elems) by apply lookup_insert_eq.
  rewrite insert_insert_eq.
  unfold get. rewrite lookup_insert_eq. cbv beta iota.
  unfold middle, own_prop. simpl String.eqb. cbv iota. unfold operand at 1 2. cbn [default].
  fold ascending.
  destruct (nstrict_eq _ _); unfold Array_at; rewrite ?lookup_insert_eq; reflexivity.
Qed.

Lemma Variance_Arr (a : loc) (elems : list num) (h : heap) :
  h !! a = Some (Arr elems) ->
  exists (r : num) (squares : list num),
    Arithma.Variance (VRef a) h
    = (Ok r, <[fresh (dom h) := Arr squares]> h).
Proof.
  intros E. unfold Arithma.Variance, bind.
  rewrite (Mean_Arr a elems h E).
  unfold Array_map, bind, ret, alloc.
  rewrite (Array_elems_Arr a elems h E).
  erewrite Mean_Arr by apply lookup_insert_eq.
  eexists _, _. reflexivity.
Qed.

(** Any statistic applied to something that is not an array throws before
    it allocates. *)
Lemma apply_not_array (Math_sqrt : num -> num) (s : Arithma.statistic)
    (array : value) (h : heap) :
  Array_elems array h = (Throw TypeError, h) ->
  Arithma.apply Math_sqrt s array h = (Throw TypeError, h).
Proof.
  intros E.
  destruct s; unfold Arithma.apply, Arithma.StandardDeviation, Arithma.Variance,
    Arithma.Mean, Arithma.Median, Arithma.Max, Arithma.Min, Arithma.Sum,
    Array_reduce, Array_spread, Math_max_of, Math_min_of, bind;
    rewrite E; reflexivity.
Qed.

(** The heap a statistic leaves: the one it started from, possibly with one
    more array at a location that was unused. *)
Lemma apply_heap (Math_sqrt : num -> num) (s : Arithma.statistic)
    (array : value) (h : heap) :
  (Arithma.apply Math_sqrt s array h).2 = h
  \/ exists elems, (Arithma.apply Math_sqrt s array h).2
                   = <[fresh (dom h) := Arr elems]> h.
Proof.
  destruct (Array_elems_cases array h) as [(a & elems & -> & E & Helems)|Herr].
  2:{ left. rewrite (apply_not_array Math_sqrt s array h Herr). reflexivity. }
  destruct s; unfold Arithma.apply, bind.
  - rewrite (Mean_Arr a elems h E). left. reflexivity.
  - rewrite (Median_Arr a elems h E). right. eexists. reflexivity.
  - destruct (Variance_Arr a elems h E) as (r & sq & ->). right. eexists. reflexivity.
  - unfold Arithma.StandardDeviation, bind.
    destruct (Variance_Arr a elems h E) as (r & sq & ->). right. eexists. reflexivity.
  - unfold Arithma.Max, Math_max_of, bind. rewrite Helems. left. reflexivity.
  - unfold Arithma.Min, Math_min_of, bind. rewrite Helems. left. reflexivity.
  - unfold Arithma.Sum, Array_reduce, bind. rewrite Helems. left. reflexivity.
Qed.

(** C7.  Whatever the statistic and its argument, every object of the heap
    is the same after the call as before it: in particular the input array
    keeps its elements and their order, and [Median] sorts a copy. *)
Theorem statistics_leave_heap_objects (Math_sqrt : num -> num)
    (s : Arithma.statistic) (array : value) (h : heap) (l : loc) (o : obj) :
  h !! l = Some o ->
  (Arithma.apply Math_sqrt s array h).2 !! l = Some o.
Proof.
  intros Hl.
  destruct (apply_heap Math_sqrt s array h) as [->|[elems ->]].
  - exact Hl.
  - apply insert_fresh_keeps. exact Hl.
Qed.

Lemma statistics_leave_heap_objects_witness :
  (Arithma.apply (fun x => x) Arithma.SMedian (VRef 1%positive)
     {[ 1%positive := Arr [Fin 3; Fin 1; Fin 2] ]}).2 !! 1%positive
  = Some (Arr [Fin 3; Fin 1; Fin 2]).
Proof.
  apply (statistics_leave_heap_objects (fun x => x) Arithma.SMedian (VRef 1%positive)
           {[ 1%positive := Arr [Fin 3; Fin 1; Fin 2] ]} 1%positive).
  reflexivity.
Defined.

(** [sort] itself does reorder the array it is applied to. *)
Example Array_sort_in_place :
  (Array_sort (VRef 1%positive) ascending
     {[ 1%positive := Arr [Fin 3; Fin 1; Fin 2] ]}).2 !! 1%positive
  = Some (Arr [Fin 1; Fin 2; Fin 3]).
Proof. vm_compute. reflexivity. Qed.

(** C1 (what the code does).  On the empty array no statistic throws and
    none touches the heap: [Mean] is [0 / 0], [Sum] the initial value of
    its reduction, [Max] and [Min] the values [Math.max()] and [Math.min()]
    have without argument. *)
Theorem statistics_of_empty (h : heap) (a : loc) :
  h !! a = Some (Arr []) ->
  Arithma.Mean (VRef a) h = (Ok NaN, h)
  /\ Arithma.Sum (VRef a) h = (Ok (Fin 0), h)
  /\ Arithma.Max (VRef a) h = (Ok NInf, h)
  /\ Arithma.Min (VRef a) h = (Ok PInf, h).
Proof.
  intros E. split_and!.
  - rewrite (Mean_Arr a [] h E). reflexivity.
  - unfold Arithma.Sum, Array_reduce, bind. rewrite (Array_elems_Arr a [] h E). reflexivity.
  - unfold Arithma.Max, Math_max_of, bind. rewrite (Array_elems_Arr a [] h E). reflexivity.
  - unfold Arithma.Min, Math_min_of, bind. rewrite (Array_elems_Arr a [] h E). reflexivity.
Qed.

Lemma statistics_of_empty_witness :
  let h : heap := {[ 1%positive := Arr [] ]} in
  Arithma.Mean (VRef 1%positive) h = (Ok NaN, h)
  /\ Arithma.Sum (VRef 1%positive) h = (Ok (Fin 0), h)
  /\ Arithma.Max (VRef 1%positive) h = (Ok NInf, h)
  /\ Arithma.Min (VRef 1%positive) h = (Ok PInf, h).
Proof.
  intros h. apply (statistics_of_empty h 1%positive). reflexivity.
Defined.

(** C1 as stated fails: on the empty array none of the four raises. *)
Lemma statistics_of_empty_do_not_raise :
  let h : heap := {[ 1%positive := Arr [] ]} in
  ~ raises (Arithma.Mean (VRef 1%positive) h).1
  /\ ~ raises (Arithma.Sum (VRef 1%positive) h).1
  /\ ~ raises (Arithma.Max (VRef 1%positive) h).1
  /\ ~ raises (Arithma.Min (VRef 1%positive) h).1.
Proof.
  intros h. split_and!; vm_compute; intros [].
Qed.

(** ** Vectors *)

Lemma lookup_method_app (t1 t2 : list (string * method)) (name : string) :
  lookup_method (t1 ++ t2) name
  = match lookup_method t1 name with
    | Some m => Some m
    | None => lookup_method t2 name
    end.
Proof.
  induction t1 as [|[n m] t1 IH]; simpl; [reflexivity|].
  destruct (String.eqb n name); [reflexivity | exact IH].
Qed.

(** Every name but [Normalize] resolves in the class as among the methods
    [Normalize] looks its callees up in. *)
Lemma Vector2_prototype_lookup (Math_sqrt : num -> num) (name : string) :
  name <> "Normalize"%string ->
  lookup_method (Vector2.prototype Math_sqrt) name
  = lookup_method (Vector2.members Math_sqrt) name.
Proof.
  intros Hne. unfold Vector2.prototype. rewrite lookup_method_app.
  destruct (lookup_method (Vector2.members Math_sqrt) name); [reflexivity|].
  cbn [lookup_method].
  destruct (String.eqb_spec "Normalize" name) as [E|E]; [symmetry in E; contradiction | reflexivity].
Qed.

Lemma Vector3_prototype_lookup (Math_sqrt : num -> num) (name : string) :
  name <> "Normalize"%string ->
  lookup_method (Vector3.prototype Math_sqrt) name
  = lookup_method (Vector3.members Math_sqrt) name.
Proof.
  intros Hne. unfold Vector3.prototype. rewrite lookup_method_app.
  destruct (lookup_method (Vector3.members Math_sqrt) name); [reflexivity|].
  cbn [lookup_method].
  destruct (String.eqb_spec "Normalize" name) as [E|E]; [symmetry in E; contradiction | reflexivity].
Qed.

(** The class has no method of either name [Normalize] calls. *)
Lemma Vector2_no_length_no_divide (Math_sqrt : num -> num) :
  lookup_method (Vector2.prototype Math_sqrt) "length" = None
  /\ lookup_method (Vector2.prototype Math_sqrt) "divide" = None.
Proof. split; reflexivity. Qed.

Lemma Vector3_no_length_no_divide (Math_sqrt : num -> num) :
  lookup_method (Vector3.prototype Math_sqrt) "length" = None
  /\ lookup_method (Vector3.prototype Math_sqrt) "divide" = None.
Proof. split; reflexivity. Qed.

(** C2 (the code).  [v.Normalize()] throws a [TypeError] for every vector,
    the zero vector included: its first step calls [this.length], and the
    class defines [Length]. *)
Theorem Normalize_throws (Math_sqrt : num -> num) (h : heap) (v : loc) :
  (forall x y : num, h !! v = Some (Vec2 x y) ->
     invoke (Vector2.prototype Math_sqrt) v "Normalize" [] h = (Throw TypeError, h))
  /\ (forall x y z : num, h !! v = Some (Vec3 x y z) ->
        invoke (Vector3.prototype Math_sqrt) v "Normalize" [] h = (Throw TypeError, h)).
Proof.
  split.
  - intros x y E. unfold invoke at 1. rewrite E. simpl.
    unfold Vector2.Normalize, bind, invoke. rewrite E. reflexivity.
  - intros x y z E. unfold invoke at 1. rewrite E. simpl.
    unfold Vector3.Normalize, bind, invoke. rewrite E. reflexivity.
Qed.

Lemma Normalize_throws_witness :
  let h2 : heap := {[ 1%positive := Vec2 (Fin 0) (Fin 0) ]} in
  let h3 : heap := {[ 1%positive := Vec3 (Fin 3) (Fin 0) (Fin 4) ]} in
  invoke (Vector2.prototype (fun x => x)) 1%positive "Normalize" [] h2
  = (Throw TypeError, h2)
  /\ invoke (Vector3.prototype (fun x => x)) 1%positive "Normalize" [] h3
     = (Throw TypeError, h3).
Proof.
  intros h2 h3. split.
  - apply (proj1 (Normalize_throws (fun x => x) h2 1%positive) (Fin 0) (Fin 0)).
    reflexivity.
  - apply (proj2 (Normalize_throws (fun x => x) h3 1%positive) (Fin 3) (Fin 0) (Fin 4)).
    reflexivity.
Defined.

(** The method the class does declare, [Length], is found and runs. *)
Example Length_of_zero_vector (Math_sqrt : num -> num) :
  invoke (Vector2.prototype Math_sqrt) 1%positive "Length" []
    {[ 1%positive := Vec2 (Fin 0) (Fin 0) ]}
  = (Ok (VNum (Math_sqrt (Fin (0 * (0 * 1) + 0 * (0 * 1))))),
     {[ 1%positive := Vec2 (Fin 0) (Fin 0) ]}).
Proof. reflexivity. Qed.



(** ** Median: the sorted copy *)




(** ** Median: sorted rearrangements agree position by position *)









(** ** Median: reading the middle of the sorted copy *)







(** The two values the specification quotes. *)
Example Median_1234 :
  (Arithma.Median (VRef 1%positive)
     {[ 1%positive := Arr [Fin 1; Fin 2; Fin 3; Fin 4] ]}).1
  = Ok (Some (Fin (5 # 2))).
Proof. vm_compute. reflexivity. Qed.

Example Median_123 :
  (Arithma.Median (VRef 1%positive)
     {[ 1%positive := Arr [Fin 1; Fin 2; Fin 3] ]}).1
  = Ok (Some (Fin 2)).
Proof. vm_compute. reflexivity. Qed.

(** The empty array has no middle: the two reads are out of range. *)
Example Median_empty :
  (Arithma.Median (VRef 1%positive) {[ 1%positive := Arr [] ]}).1 = Ok (Some NaN).
Proof. vm_compute. reflexivity. Qed.

(** * Further properties of the code *)

(** ** Random: picking from an object *)





(** ** Random: weighted selection at its edges *)

Lemma foldl_Qplus_zero (ws : list Q) (c : Q) :
  Forall (fun w => w == 0) ws -> foldl Qplus c ws == c.
Proof.
  revert c. induction ws as [|w ws IH]; intros c Hws; simpl.
  - reflexivity.
  - apply Forall_cons in Hws as [Hw Hws]. rewrite (IH (c + w) Hws), Hw. ring.
Qed.

Lemma total_zero (ws : list Q) :
  Forall (fun w => w == 0) ws -> total ws == 0.
Proof. apply foldl_Qplus_zero. Qed.

Lemma weight_at_cases (ws : list Q) (i : nat) :
  (exists w, ws !! i = Some w /\ Random.weight_at (map Fin ws) i = Fin w)
  \/ Random.weight_at (map Fin ws) i = NaN.
Proof.
  unfold Random.weight_at. rewrite list_lookup_fmap.
  destruct (ws !! i) as [w|]; [left; exists w; auto | right; reflexivity].
Qed.

Lemma scan_all_zero (A : Type) (ws : list Q) (r : Q) :
  r == 0 -> Forall (fun w => w == 0) ws ->
  forall (pending : list A) (i : nat) (c : num),
    (c = NaN \/ exists q, c = Fin q /\ q == 0) ->
    Random.scan (map Fin ws) (Fin r) i pending c = None.
Proof.
  intros Hr Hws pending. induction pending as [|item pending IH]; intros i c Hc.
  - reflexivity.
  - cbn [Random.scan].
    assert (Hc' : nadd c (Random.weight_at (map Fin ws) i) = NaN
                  \/ exists q, nadd c (Random.weight_at (map Fin ws) i) = Fin q /\ q == 0).
    { destruct Hc as [-> | (q & -> & Hq)]; [left; reflexivity|].
      destruct (weight_at_cases ws i) as [(w & Hw & ->) | ->]; [|left; reflexivity].
      right. exists (q + w). split; [reflexivity|].
      rewrite Forall_forall in Hws.
      rewrite (Hws w), Hq; [ring|]. apply list_elem_of_lookup. eauto. }
    assert (E : nlt (Fin r) (nadd c (Random.weight_at (map Fin ws) i)) = false).
    { destruct Hc' as [-> | (q & -> & Hq)]; [reflexivity|].
      destruct (nlt (Fin r) (Fin q)) eqn:E; [|reflexivity].
      apply nlt_Fin in E. lra. }
    rewrite E. apply IH. exact Hc'.
Qed.

(** X4.  When every weight is zero, [WeightedSelect] returns [undefined],
    whatever the items and the draw: no cumulative weight ever exceeds
    [r = u * 0]. *)
Theorem WeightedSelect_all_zero (A : Type) (u : Q) (items : list A) (ws : list Q) :
  Forall (fun w => w == 0) ws ->
  Random.WeightedSelect u items (map Fin ws) = None.
Proof.
  intros Hws. unfold Random.WeightedSelect. cbv zeta.
  rewrite foldl_nadd_Fin. cbn [nmul].
  apply scan_all_zero.
  - fold (total ws). rewrite (total_zero ws Hws). ring.
  - exact Hws.
  - right. exists 0. split; reflexivity.
Qed.

Lemma WeightedSelect_all_zero_witness :
  Random.WeightedSelect (1#3) ["a"; "b"]%string (map Fin [0; 0]) = None.
Proof.
  apply (WeightedSelect_all_zero string (1#3) ["a"; "b"]%string [0; 0]).
  repeat constructor.
Defined.

(** ** Arithma: Clamp *)

Lemma nlt_Fin_false (a b : Q) : nlt (Fin a) (Fin b) = false <-> b <= a.
Proof.
  split.
  - intros E. apply Qnot_lt_le. intros Hlt. apply nlt_Fin in Hlt. congruence.
  - intros Hle. destruct (nlt (Fin a) (Fin b)) eqn:E; [|reflexivity].
    apply nlt_Fin in E. lra.
Qed.

Lemma Clamp_finite (v lo hi : Q) :
  Arithma.Clamp (Fin v) (Fin lo) (Fin hi)
  = nmax (Fin lo) (nmin (Fin v) (Fin hi)).
Proof. reflexivity. Qed.



(** X7.  With the bounds the wrong way round, [max < min], [Clamp] returns
    [min] for every finite value: the outer [Math.max] wins. *)
Theorem Clamp_inverted_bounds (v lo hi : Q) :
  hi < lo -> Arithma.Clamp (Fin v) (Fin lo) (Fin hi) = Fin lo.
Proof.
  intros Hlt. rewrite Clamp_finite.
  change (nmin (Fin v) (Fin hi)) with (if nlt (Fin hi) (Fin v) then Fin hi else Fin v).
  destruct (nlt (Fin hi) (Fin v)) eqn:E1.
  - change (nmax (Fin lo) (Fin hi)) with (if nlt (Fin lo) (Fin hi) then Fin hi else Fin lo).
    assert (E : nlt (Fin lo) (Fin hi) = false) by (apply nlt_Fin_false; lra).
    rewrite E. reflexivity.
  - apply nlt_Fin_false in E1.
    change (nmax (Fin lo) (Fin v)) with (if nlt (Fin lo) (Fin v) then Fin v else Fin lo).
    assert (E : nlt (Fin lo) (Fin v) = false) by (apply nlt_Fin_false; lra).
    rewrite E. reflexivity.
Qed.

Lemma Clamp_inverted_bounds_witness :
  Arithma.Clamp (Fin 3) (Fin 5) (Fin 0) = Fin 5.
Proof. apply (Clamp_inverted_bounds 3 5 0). reflexivity. Defined.

(** ** Arithma: the median and the order of the input *)




(** ** Arithma: arguments that are not arrays, and the empty array *)

(** X14.  Every statistic throws a [TypeError] when its argument is not an
    array ([undefined], a number, a vector), and leaves the heap as it
    was. *)
Theorem statistics_reject_non_arrays (Math_sqrt : num -> num)
    (s : Arithma.statistic) (array : value) (h : heap) :
  (forall (l : loc) (elems : list num),
     array = VRef l -> h !! l <> Some (Arr elems)) ->
  Arithma.apply Math_sqrt s array h = (Throw TypeError, h).
Proof.
  intros Hnot. apply apply_not_array.
  destruct (Array_elems_cases array h) as [(a & elems & -> & E & _)|Herr];
    [|exact Herr].
  exfalso. exact (Hnot a elems eq_refl E).
Qed.

Lemma statistics_reject_non_arrays_witness :
  let h : heap := {[ 1%positive := Vec2 (Fin 3) (Fin 4) ]} in
  Arithma.apply (fun x => x) Arithma.SMean (VRef 1%positive) h = (Throw TypeError, h)
  /\ Arithma.apply (fun x => x) Arithma.SMedian VUndef h = (Throw TypeError, h).
Proof.
  intros h. split.
  - apply (statistics_reject_non_arrays (fun x => x) Arithma.SMean (VRef 1%positive) h).
    intros l elems [= <-]. vm_compute. discriminate.
  - apply (statistics_reject_non_arrays (fun x => x) Arithma.SMedian VUndef h).
    intros l elems. discriminate.
Defined.

(** X15.  On the empty array [Median] and [Variance] do not throw: both
    return [NaN], and [StandardDeviation] returns the square root of
    [NaN]. *)
Theorem Median_Variance_of_empty (Math_sqrt : num -> num) (h : heap) (a : loc) :
  h !! a = Some (Arr []) ->
  (Arithma.Median (VRef a) h).1 = Ok (Some NaN)
  /\ (Arithma.Variance (VRef a) h).1 = Ok NaN
  /\ (Arithma.StandardDeviation Math_sqrt (VRef a) h).1 = Ok (Math_sqrt NaN).
Proof.
  intros Ha.
  assert (Hvar : Arithma.Variance (VRef a) h = (Ok NaN, <[fresh (dom h) := Arr []]> h)).
  { unfold Arithma.Variance, bind. rewrite (Mean_Arr a [] h Ha).
    unfold Array_map, bind, ret, alloc. rewrite (Array_elems_Arr a [] h Ha).
    cbn [map]. rewrite (Mean_Arr (fresh (dom h)) []) by apply lookup_insert_eq.
    reflexivity. }
  split_and!.
  - rewrite (Median_Arr a [] h Ha). reflexivity.
  - rewrite Hvar. reflexivity.
  - unfold Arithma.StandardDeviation, bind. rewrite Hvar. reflexivity.
Qed.

Lemma Median_Variance_of_empty_witness :
  let h : heap := {[ 1%positive := Arr [] ]} in
  (Arithma.Median (VRef 1%positive) h).1 = Ok (Some NaN)
  /\ (Arithma.Variance (VRef 1%positive) h).1 = Ok NaN
  /\ (Arithma.StandardDeviation (fun x => x) (VRef 1%positive) h).1 = Ok NaN.
Proof.
  intros h. apply (Median_Variance_of_empty (fun x => x) h 1%positive). reflexivity.
Defined.

(** ** Vectors: no method changes an existing object *)

Lemma grows_ret (A : Type) (a : A) : grows (ret a).
Proof. intros h l o Hl. exact Hl. Qed.

Lemma grows_throw (A : Type) (e : error) : grows (@throw A e).
Proof. intros h l o Hl. exact Hl. Qed.

Lemma grows_bind (A B : Type) (m : M A) (k : A -> M B) :
  grows m -> (forall a, grows (k a)) -> grows (bind m k).
Proof.
  intros Hm Hk h l o Hl. unfold bind.
  specialize (Hm h l o Hl). destruct (m h) as [[a|e] h']; simpl in Hm.
  - apply Hk. exact Hm.
  - exact Hm.
Qed.

Lemma grows_get (v : value) (p : string) : grows (get v p).
Proof.
  intros h l o Hl. unfold get.
  destruct v as [|n|r]; try exact Hl. destruct (h !! r); exact Hl.
Qed.

Lemma grows_ToNumber (v : value) : grows (ToNumber v).
Proof.
  intros h l o Hl. unfold ToNumber.
  destruct v as [|n|r]; try exact Hl.
  destruct (h !! r) as [[[|n [|n' elems]]|x y|x y z]|]; exact Hl.
Qed.

Lemma grows_alloc (o : obj) : grows (alloc o).
Proof. intros h l o' Hl. apply insert_fresh_keeps. exact Hl. Qed.

Ltac grows_steps :=
  repeat first
    [ apply grows_ret | apply grows_throw | apply grows_get
    | apply grows_ToNumber | apply grows_alloc
    | apply grows_bind; [| intros ?] ].

Lemma lookup_method_Forall (P : method -> Prop) (table : list (string * method))
    (name : string) (m : method) :
  Forall (fun entry => P entry.2) table ->
  lookup_method table name = Some m -> P m.
Proof.
  induction 1 as [|[n m'] table Hm _ IH]; simpl; [discriminate|].
  destruct (String.eqb n name); [intros [= <-]; exact Hm | exact IH].
Qed.

Lemma grows_invoke (table : list (string * method)) (this : loc)
    (name : string) (args : list value) :
  Forall (fun entry => forall this args, grows (entry.2 this args)) table ->
  grows (invoke table this name args).
Proof.
  intros Htable h l o Hl. unfold invoke.
  destruct (h !! this) as [obj|]; [|exact Hl].
  destruct (own_prop obj name); [exact Hl|].
  destruct (lookup_method table name) as [m|] eqn:E; [|exact Hl].
  apply (lookup_method_Forall (fun m => forall this args, grows (m this args))
           table name m Htable E). exact Hl.
Qed.

Lemma Vector2_members_grow (Math_sqrt : num -> num) :
  Forall (fun entry => forall this args, grows (entry.2 this args))
    (Vector2.members Math_sqrt).
Proof.
  unfold Vector2.members.
  repeat (constructor; [intros this args; simpl;
    unfold Vector2.Add, Vector2.Subtract, Vector2.Multiply, Vector2.Divide,
      Vector2.Length, Vector2.Dot, Vector2.new; grows_steps |]).
  constructor.
Qed.

Lemma Vector3_members_grow (Math_sqrt : num -> num) :
  Forall (fun entry => forall this args, grows (entry.2 this args))
    (Vector3.members Math_sqrt).
Proof.
  unfold Vector3.members.
  repeat (constructor; [intros this args; simpl;
    unfold Vector3.Add, Vector3.Subtract, Vector3.Multiply, Vector3.Divide,
      Vector3.Length, Vector3.Dot, Vector3.Cross, Vector3.new; grows_steps |]).
  constructor.
Qed.

Lemma Vector2_prototype_grows (Math_sqrt : num -> num) :
  Forall (fun entry => forall this args, grows (entry.2 this args))
    (Vector2.prototype Math_sqrt).
Proof.
  unfold Vector2.prototype. apply Forall_app. split.
  - apply Vector2_members_grow.
  - constructor; [|constructor]. intros this args. simpl.
    unfold Vector2.Normalize. apply grows_bind.
    + apply grows_invoke, Vector2_members_grow.
    + intros len. apply grows_bind; [apply grows_ToNumber|]. intros n.
      destruct (ngt n (Fin 0)).
      * apply grows_invoke, Vector2_members_grow.
      * unfold Vector2.new. grows_steps.
Qed.

Lemma Vector3_prototype_grows (Math_sqrt : num -> num) :
  Forall (fun entry => forall this args, grows (entry.2 this args))
    (Vector3.prototype Math_sqrt).
Proof.
  unfold Vector3.prototype. apply Forall_app. split.
  - apply Vector3_members_grow.
  - constructor; [|constructor]. intros this args. simpl.
    unfold Vector3.Normalize. apply grows_bind.
    + apply grows_invoke, Vector3_members_grow.
    + intros len. apply grows_bind; [apply grows_ToNumber|]. intros n.
      destruct (ngt n (Fin 0)).
      * apply grows_invoke, Vector3_members_grow.
      * unfold Vector3.new. grows_steps.
Qed.

(** X16.  No method of [Vector2] or [Vector3] changes an object that
    exists: whatever the method name, the receiver and the arguments of a
    call, every object of the heap (the receiver and a vector passed as
    argument among them) is the same after the call. *)
Theorem vector_methods_keep_objects (Math_sqrt : num -> num) (name : string)
    (this : loc) (args : list value) (h : heap) (l : loc) (o : obj) :
  h !! l = Some o ->
  (invoke (Vector2.prototype Math_sqrt) this name args h).2 !! l = Some o
  /\ (invoke (Vector3.prototype Math_sqrt) this name args h).2 !! l = Some o.
Proof.
  intros Hl. split.
  - exact (grows_invoke _ this name args (Vector2_prototype_grows Math_sqrt) h l o Hl).
  - exact (grows_invoke _ this name args (Vector3_prototype_grows Math_sqrt) h l o Hl).
Qed.

Lemma vector_methods_keep_objects_witness :
  let h : heap :=
    <[ 2%positive := Vec3 (Fin 4) (Fin 5) (Fin 6) ]>
      {[ 1%positive := Vec3 (Fin 1) (Fin 2) (Fin 3) ]} in
  (invoke (Vector2.prototype (fun x => x)) 1%positive "Add" [VRef 2%positive] h).2
    !! 1%positive = Some (Vec3 (Fin 1) (Fin 2) (Fin 3))
  /\ (invoke (Vector3.prototype (fun x => x)) 1%positive "Add" [VRef 2%positive] h).2
       !! 1%positive = Some (Vec3 (Fin 1) (Fin 2) (Fin 3)).
Proof.
  intros h.
  apply (vector_methods_keep_objects (fun x => x) "Add" 1%positive [VRef 2%positive]
           h 1%positive).
  reflexivity.
Defined.

(** ** Vectors: the cross product *)

(** The cross product the specification quotes. *)
Example Cross_x_y :
  let h : heap :=
    <[ 2%positive := Vec3 (Fin 0) (Fin 1) (Fin 0) ]>
      {[ 1%positive := Vec3 (Fin 1) (Fin 0) (Fin 0) ]} in
  exists c h1,
    Vector3.Cross 1%positive (VRef 2%positive) h = (Ok c, h1)
    /\ h1 !! c = Some (Vec3 (Fin 0) (Fin 0) (Fin 1)).
Proof. eexists _, _. split; vm_compute; reflexivity. Qed.

(** ** Vectors: calls without their argument *)

(** X22.  Called without argument, [Add], [Subtract] and [Dot] (and [Cross]
    on a [Vector3]) throw a [TypeError] and create nothing: the body reads
    a component of [undefined]. *)
Theorem vector_argument_missing (Math_sqrt : num -> num) (h : heap) (v : loc)
    (name : string) :
  (forall x y : num,
     h !! v = Some (Vec2 x y) ->
     name ∈ ["Add"; "Subtract"; "Dot"]%string ->
     invoke (Vector2.prototype Math_sqrt) v name [] h = (Throw TypeError, h))
  /\ (forall x y z : num,
        h !! v = Some (Vec3 x y z) ->
        name ∈ ["Add"; "Subtract"; "Dot"; "Cross"]%string ->
        invoke (Vector3.prototype Math_sqrt) v name [] h = (Throw TypeError, h)).
Proof.
  split.
  - intros x y Hv Hname.
    repeat (apply elem_of_cons in Hname as [-> | Hname]);
      [ | | | inversion Hname ];
      unfold invoke; rewrite Hv; cbn [own_prop String.eqb Ascii.eqb Bool.eqb];
      cbn [lookup_method Vector2.prototype Vector2.members app String.eqb Ascii.eqb Bool.eqb];
      cbn [arg lookup list_lookup default];
      unfold Vector2.Add, Vector2.Subtract, Vector2.Dot, bind, get;
      rewrite Hv; reflexivity.
  - intros x y z Hv Hname.
    repeat (apply elem_of_cons in Hname as [-> | Hname]);
      [ | | | | inversion Hname ];
      unfold invoke; rewrite Hv; cbn [own_prop String.eqb Ascii.eqb Bool.eqb];
      cbn [lookup_method Vector3.prototype Vector3.members app String.eqb Ascii.eqb Bool.eqb];
      cbn [arg lookup list_lookup default];
      unfold Vector3.Add, Vector3.Subtract, Vector3.Dot, Vector3.Cross, bind, get;
      repeat (rewrite Hv; cbv beta iota); reflexivity.
Qed.

Lemma vector_argument_missing_witness :
  let h2 : heap := {[ 1%positive := Vec2 (Fin 3) (Fin 4) ]} in
  let h3 : heap := {[ 1%positive := Vec3 (Fin 1) (Fin 2) (Fin 3) ]} in
  invoke (Vector2.prototype (fun x => x)) 1%positive "Dot" [] h2 = (Throw TypeError, h2)
  /\ invoke (Vector3.prototype (fun x => x)) 1%positive "Dot" [] h3 = (Throw TypeError, h3).
Proof.
  intros h2 h3. split.
  - apply (proj1 (vector_argument_missing (fun x => x) h2 1%positive "Dot")
             (Fin 3) (Fin 4)).
    + reflexivity.
    + apply elem_of_cons. right. apply elem_of_cons. right. apply elem_of_cons. left.
      reflexivity.
  - apply (proj2 (vector_argument_missing (fun x => x) h3 1%positive "Dot")
             (Fin 1) (Fin 2) (Fin 3)).
    + reflexivity.
    + apply elem_of_cons. right. apply elem_of_cons. right. apply elem_of_cons. left.
      reflexivity.
Defined.

(** * The code in binary64 *)

(** ** Where rounding and overflow decide *)

(** C5 (the code at a draw next to 1).  With [Math.random()] returning
    [1 - 2^-52], [Range(100, 101)] is [101], the excluded bound itself:
    [u * 1 + 100] rounds up.  [RangeInt(100, 101)] is then [101] too. *)
Theorem Range_reaches_max :
  let u := (1 - 0x1p-52)%float in
  (0 <=? u)%float = true /\ (u <? 1)%float = true
  /\ Binary64.Random.Range u 100 101 = 101%float
  /\ Binary64.Random.RangeInt u 100 101 = 101%float.
Proof. vm_compute. repeat split; reflexivity. Qed.


(** C9 (the code falling off the end).  Under the precondition, with as
    many non-negative finite weights as items and a positive total, the
    scan runs off the end and [WeightedSelect] returns [undefined]: for
    every draw but 0 when the total overflows, and when [u * total] rounds
    up to the total, as three quarters of the least positive number do. *)
Theorem WeightedSelect_falls_off_the_end :
  Binary64.Random.WeightedSelect 0.5%float ["a"; "b"]%string
    [0x1p1023; 0x1p1023]%float = None
  /\ (0.75 * 0x1p-1074 <? 0x1p-1074)%float = false
  /\ Binary64.Random.WeightedSelect 0.75%float ["a"]%string [0x1p-1074]%float = None.
Proof. vm_compute. repeat split; reflexivity. Qed.

(** C6 (the code when the sum of the two middle elements overflows).  The
    median of the two numbers [2^1023] is [2^1023]; [Median] returns
    [Infinity], because it halves their sum. *)
Theorem Median_overflows :
  Binary64.Arithma.Median [0x1p1023; 0x1p1023]%float = Some PrimFloat.infinity.
Proof. vm_compute. reflexivity. Qed.

(** Away from the edges the binary64 results are the expected ones. *)
Example Median_binary64 :
  Binary64.Arithma.Median [4; 1; 3; 2]%float = Some 2.5%float
  /\ Binary64.Arithma.Median [3; 1; 2]%float = Some 2%float
  /\ Binary64.Arithma.Median [] = Some PrimFloat.nan.
Proof. vm_compute. repeat split; reflexivity. Qed.

Example RangeInt_binary64 :
  Binary64.Random.RangeInt 0.5%float 3 7 = 5%float
  /\ Binary64.Random.RangeInt 0.75%float (-3) 0 = (-1)%float
  /\ Binary64.Math_floor (-0.5)%float = (-1)%float
  /\ Binary64.Math_floor 2.5%float = 2%float.
Proof. vm_compute. repeat split; reflexivity. Qed.

Example WeightedSelect_binary64 :
  Binary64.Random.WeightedSelect 0.25%float ["a"; "b"]%string [1; 3]%float
  = Some "b"%string
  /\ Binary64.Random.WeightedSelect 0.125%float ["a"; "b"]%string [1; 3]%float
     = Some "a"%string.
Proof. vm_compute. split; reflexivity. Qed.

(** ** Weighted selection: what the scan returns *)

Lemma accumulated_step (ws : list float) (i : nat) :
  (accumulated_before ws i + Binary64.Random.weight_at ws i)%float
  = accumulated ws i.
Proof. destruct i; reflexivity. Qed.

(** The scan entered at index [i] returns the item at the first index from
    [i] on where the drawn number is below the accumulated weight. *)
Lemma scan_Some (A : Type) (ws : list float) (r : float) (item : A) :
  forall (pending : list A) (i : nat),
    Binary64.Random.scan ws r i pending (accumulated_before ws i) = Some item
    <-> exists k : nat,
          (i <= k)%nat /\ pending !! (k - i)%nat = Some item
          /\ (r <? accumulated ws k)%float = true
          /\ forall j, (i <= j < k)%nat -> (r <? accumulated ws j)%float = false.
Proof.
  induction pending as [|first pending IH]; intros i.
  - cbn [Binary64.Random.scan]. split; [discriminate|].
    intros (k & _ & Hk & _). discriminate.
  - cbn [Binary64.Random.scan]. rewrite accumulated_step.
    destruct (r <? accumulated ws i)%float eqn:E.
    + split.
      * intros [= <-]. exists i. split_and!; auto.
        -- rewrite Nat.sub_diag. reflexivity.
        -- intros j Hj. lia.
      * intros (k & Hik & Hk & _ & Hbefore).
        destruct (decide (k = i)) as [-> | Hne].
        -- rewrite Nat.sub_diag in Hk. exact Hk.
        -- rewrite (Hbefore i) in E by lia. discriminate.
    + change (accumulated ws i) with (accumulated_before ws (S i)).
      rewrite (IH (S i)). split.
      * intros (k & Hik & Hk & Hr & Hbefore). exists k. split_and!; auto.
        -- lia.
        -- replace (k - i)%nat with (S (k - S i)) by lia. exact Hk.
        -- intros j Hj. destruct (decide (j = i)) as [-> | Hne]; [exact E|].
           apply Hbefore. lia.
      * intros (k & Hik & Hk & Hr & Hbefore).
        assert (Hne : k <> i) by (intros ->; congruence).
        exists k. split_and!; auto.
        -- lia.
        -- replace (k - i)%nat with (S (k - S i)) in Hk by lia. exact Hk.
        -- intros j Hj. apply Hbefore. lia.
Qed.

Lemma scan_None (A : Type) (ws : list float) (r : float) :
  forall (pending : list A) (i : nat),
    Binary64.Random.scan ws r i pending (accumulated_before ws i) = None
    <-> forall k, (i <= k < i + length pending)%nat ->
                  (r <? accumulated ws k)%float = false.
Proof.
  induction pending as [|first pending IH]; intros i.
  - cbn [Binary64.Random.scan length]. split; [intros _ k Hk; lia | reflexivity].
  - cbn [Binary64.Random.scan length]. rewrite accumulated_step.
    destruct (r <? accumulated ws i)%float eqn:E.
    + split; [discriminate|]. intros Hall. rewrite (Hall i) in E by lia. discriminate.
    + change (accumulated ws i) with (accumulated_before ws (S i)).
      rewrite (IH (S i)). split.
      * intros Hall k Hk. destruct (decide (k = i)) as [-> | Hne]; [exact E|].
        apply Hall. lia.
      * intros Hall k Hk. apply Hall. lia.
Qed.

(** X5.  In binary64, [WeightedSelect] returns an item exactly when that
    item sits at the first index where the drawn number [u * total] is
    strictly below the cumulative weight, both as the code computes them;
    the lists may have any lengths. *)
Theorem WeightedSelect_first_exceeded (A : Type) (u : float)
    (items : list A) (ws : list float) (item : A) :
  Binary64.Random.WeightedSelect u items ws = Some item
  <-> exists k : nat, items !! k = Some item /\ first_exceeded u ws k.
Proof.
  unfold Binary64.Random.WeightedSelect. cbv zeta. fold (drawn u ws).
  change 0%float with (accumulated_before ws 0) at 1.
  rewrite scan_Some. unfold first_exceeded. split.
  - intros (k & _ & Hk & Hr & Hbefore). exists k.
    rewrite Nat.sub_0_r in Hk. split_and!; auto. intros j Hj. apply Hbefore. lia.
  - intros (k & Hk & Hr & Hbefore). exists k.
    rewrite Nat.sub_0_r. split_and!; auto; [lia|]. intros j Hj. apply Hbefore. lia.
Qed.

(** X24.  In binary64, [WeightedSelect] returns [undefined] exactly when
    the drawn number is below the cumulative weight at no index of
    [items]. *)
Theorem WeightedSelect_undefined (A : Type) (u : float)
    (items : list A) (ws : list float) :
  Binary64.Random.WeightedSelect u items ws = None
  <-> forall k, (k < length items)%nat ->
                (drawn u ws <? accumulated ws k)%float = false.
Proof.
  unfold Binary64.Random.WeightedSelect. cbv zeta. fold (drawn u ws).
  change 0%float with (accumulated_before ws 0) at 1.
  rewrite scan_None. split; intros Hall k Hk; apply Hall; lia.
Qed.

(** ** Facts of binary64 arithmetic *)

Lemma ltb_nan_r (x y : float) : Prim2SF y = S754_nan -> (x <? y)%float = false.
Proof.
  intros Hy. rewrite ltb_spec, Hy. unfold SFltb, SFcompare.
  destruct (Prim2SF x); reflexivity.
Qed.

Lemma add_nan_r (x : float) : Prim2SF (x + PrimFloat.nan)%float = S754_nan.
Proof.
  rewrite add_spec. change (Prim2SF PrimFloat.nan) with S754_nan.
  unfold SF64add, SFadd. destruct (Prim2SF x); reflexivity.
Qed.

Lemma not_negative_sign_clear (x : float) : not_negative x -> sign_clear (Prim2SF x).
Proof.
  unfold not_negative. rewrite leb_spec. change (Prim2SF 0%float) with (S754_zero false).
  unfold SFleb, SFcompare. destruct (Prim2SF x) as [s|s| |s m e]; try destruct s;
    simpl; congruence || trivial.
Qed.

Lemma binary_round_aux_sign_clear (m e : Z) (l : location) :
  sign_clear (binary_round_aux prec emax false m e l).
Proof.
  unfold binary_round_aux.
  destruct (shr_fexp prec emax m e l) as [mrs' e'].
  destruct (shr_fexp prec emax _ e' loc_Exact) as [mrs'' e''].
  destruct (shr_m mrs''); simpl; trivial.
  destruct (e'' <=? emax - prec)%Z; simpl; trivial.
Qed.

Lemma binary_round_sign_clear (m : positive) (e : Z) :
  sign_clear (binary_round prec emax false m e).
Proof.
  unfold binary_round. destruct (shl_align m e _) as [mz ez].
  apply binary_round_aux_sign_clear.
Qed.

Lemma SFadd_sign_clear (x y : spec_float) :
  sign_clear x -> sign_clear y -> sign_clear (SFadd prec emax x y).
Proof.
  destruct x as [sx|sx| |sx mx ex], y as [sy|sy| |sy my ey];
    try destruct sx; try destruct sy; simpl; try tauto.
  intros _ _. apply binary_round_sign_clear.
Qed.

Lemma SFmul_sign_clear (x y : spec_float) :
  sign_clear x -> sign_clear y -> sign_clear (SFmul prec emax x y).
Proof.
  destruct x as [sx|sx| |sx mx ex], y as [sy|sy| |sy my ey];
    try destruct sx; try destruct sy; simpl; try tauto.
  intros _ _. apply binary_round_aux_sign_clear.
Qed.

Lemma foldl_add_sign_clear (ws : list float) (c : float) :
  sign_clear (Prim2SF c) -> Forall not_negative ws ->
  sign_clear (Prim2SF (foldl PrimFloat.add c ws)).
Proof.
  revert c. induction ws as [|w ws IH]; intros c Hc Hws; cbn [foldl]; [exact Hc|].
  apply Forall_cons in Hws as [Hw Hws]. apply IH; [|exact Hws].
  rewrite add_spec. apply SFadd_sign_clear; [exact Hc|].
  apply not_negative_sign_clear. exact Hw.
Qed.

Lemma sign_clear_not_below_zero (x z : float) (s : bool) :
  sign_clear (Prim2SF x) -> Prim2SF z = S754_zero s -> (x <? z)%float = false.
Proof.
  intros Hx Hz. rewrite ltb_spec, Hz. unfold SFltb, SFcompare.
  destruct (Prim2SF x) as [sx|sx| |sx mx ex]; try destruct sx; simpl in *; tauto || reflexivity.
Qed.

Lemma is_zero_spec (w : float) :
  (w =? 0)%float = true -> exists s, Prim2SF w = S754_zero s.
Proof.
  rewrite FloatAxioms.eqb_spec. change (Prim2SF 0%float) with (S754_zero false).
  unfold SFeqb, SFcompare. destruct (Prim2SF w) as [s|s| |s m e]; try destruct s;
    simpl; try discriminate; eauto.
Qed.

(** Adding a zero does not change how a number compares. *)
Lemma ltb_add_zero (r c w : float) (s : bool) :
  Prim2SF w = S754_zero s -> (r <? c + w)%float = (r <? c)%float.
Proof.
  intros Hw. rewrite !ltb_spec, add_spec, Hw. unfold SF64add, SFadd.
  destruct (Prim2SF c) as [sc|sc| |sc mc ec]; try reflexivity.
  destruct sc, s; unfold SFltb, SFcompare; destruct (Prim2SF r); reflexivity.
Qed.

Lemma SFmul_comm (x y : spec_float) : SFmul prec emax x y = SFmul prec emax y x.
Proof.
  destruct x as [sx|sx| |sx mx ex], y as [sy|sy| |sy my ey]; simpl;
    rewrite ?(xorb_comm sx sy); try reflexivity.
  rewrite (Pos.mul_comm mx my), (Z.add_comm ex ey). reflexivity.
Qed.

Lemma mul_comm (a b : float) : (a * b)%float = (b * a)%float.
Proof.
  apply Prim2SF_inj. rewrite !mul_spec. apply SFmul_comm.
Qed.

(** ** Weighted selection: weights that are missing or zero *)

Lemma accumulated_past_weights (ws : list float) (k : nat) :
  (length ws <= k)%nat -> Prim2SF (accumulated ws k) = S754_nan.
Proof.
  intros Hk.
  assert (Hw : Binary64.Random.weight_at ws k = PrimFloat.nan).
  { unfold Binary64.Random.weight_at. rewrite (lookup_ge_None_2 ws k Hk). reflexivity. }
  rewrite <- accumulated_step, Hw. apply add_nan_r.
Qed.

Lemma first_exceeded_within_weights (u : float) (ws : list float) (k : nat) :
  first_exceeded u ws k -> (k < length ws)%nat.
Proof.
  intros [Hr _]. destruct (decide (k < length ws)%nat) as [Hlt | Hge]; [exact Hlt|].
  rewrite (ltb_nan_r _ _ (accumulated_past_weights ws k ltac:(lia))) in Hr.
  discriminate.
Qed.

(** X23.  In binary64, whatever the lengths of the two lists, an item that
    [WeightedSelect] returns sits at an index that has a weight: the items
    past the end of the weights are never selected, since a missing weight
    turns the cumulative weight into [NaN]. *)
Theorem WeightedSelect_within_weights (A : Type) (u : float)
    (items : list A) (ws : list float) (item : A) :
  Binary64.Random.WeightedSelect u items ws = Some item ->
  exists (k : nat) (w : float),
    items !! k = Some item /\ ws !! k = Some w /\ first_exceeded u ws k.
Proof.
  unfold Binary64.Random.WeightedSelect. cbv zeta. fold (drawn u ws).
  change 0%float with (accumulated_before ws 0) at 1.
  intros (k & _ & Hk & Hr & Hbefore)%scan_Some.
  rewrite Nat.sub_0_r in Hk.
  assert (Hfirst : first_exceeded u ws k).
  { split; [exact Hr|]. intros j Hj. apply Hbefore. lia. }
  destruct (lookup_lt_is_Some_2 ws k) as [w Hw];
    [exact (first_exceeded_within_weights u ws k Hfirst)|].
  exists k, w. auto.
Qed.

Lemma WeightedSelect_within_weights_witness :
  exists (k : nat) (w : float),
    ["a"; "b"; "c"]%string !! k = Some "b"%string
    /\ [1; 3]%float !! k = Some w
    /\ first_exceeded 0.875%float [1; 3]%float k.
Proof.
  apply (WeightedSelect_within_weights string 0.875%float ["a"; "b"; "c"]%string
           [1; 3]%float "b"%string).
  vm_compute. reflexivity.
Defined.

(** X25.  In binary64, with weights that are not negative and a draw that
    is not negative, the item [WeightedSelect] returns never has the weight
    zero: adding a zero leaves the cumulative weight where it was, and the
    drawn number is not below zero. *)
Theorem WeightedSelect_never_zero_weight (A : Type) (u : float)
    (items : list A) (ws : list float) (item : A) :
  not_negative u -> Forall not_negative ws ->
  Binary64.Random.WeightedSelect u items ws = Some item ->
  exists (k : nat) (w : float),
    items !! k = Some item /\ ws !! k = Some w /\ first_exceeded u ws k
    /\ (w =? 0)%float = false.
Proof.
  intros Hu Hws Hsel.
  assert (Hsel' := Hsel).
  unfold Binary64.Random.WeightedSelect in Hsel'. cbv zeta in Hsel'.
  fold (drawn u ws) in Hsel'.
  change 0%float with (accumulated_before ws 0) in Hsel' at 1.
  apply scan_Some in Hsel' as (k & _ & Hk & Hr & Hbefore).
  rewrite Nat.sub_0_r in Hk.
  assert (Hfirst : first_exceeded u ws k).
  { split; [exact Hr|]. intros j Hj. apply Hbefore. lia. }
  destruct (lookup_lt_is_Some_2 ws k) as [w Hw];
    [exact (first_exceeded_within_weights u ws k Hfirst)|].
  exists k, w. split_and!; auto.
  destruct (w =? 0)%float eqn:Hzero; [exfalso | reflexivity].
  destruct (is_zero_spec w Hzero) as [s Hs].
  assert (Hwa : Binary64.Random.weight_at ws k = w).
  { unfold Binary64.Random.weight_at. rewrite Hw. reflexivity. }
  rewrite <- accumulated_step, Hwa, (ltb_add_zero _ _ w s Hs) in Hr.
  destruct k as [|j]; cbn [accumulated_before] in Hr.
  - assert (Hdrawn : sign_clear (Prim2SF (drawn u ws))).
    { unfold drawn. rewrite mul_spec. apply SFmul_sign_clear.
      - apply not_negative_sign_clear. exact Hu.
      - apply foldl_add_sign_clear; [exact I | exact Hws]. }
    rewrite (sign_clear_not_below_zero _ 0%float false Hdrawn eq_refl) in Hr.
    discriminate.
  - rewrite (Hbefore j) in Hr by lia. discriminate.
Qed.

Lemma WeightedSelect_never_zero_weight_witness :
  exists (k : nat) (w : float),
    ["a"; "b"; "c"]%string !! k = Some "c"%string
    /\ [1; 0; 3]%float !! k = Some w
    /\ first_exceeded 0.25%float [1; 0; 3]%float k
    /\ (w =? 0)%float = false.
Proof.
  apply (WeightedSelect_never_zero_weight string 0.25%float ["a"; "b"; "c"]%string
           [1; 0; 3]%float "c"%string).
  - reflexivity.
  - repeat constructor.
  - vm_compute. reflexivity.
Defined.

Lemma accumulated_foldl (ws : list float) (k : nat) :
  (k < length ws)%nat ->
  accumulated ws k = foldl PrimFloat.add 0%float (take (S k) ws).
Proof.
  induction k as [|k IH]; intros Hk.
  - destruct ws as [|w ws]; [simpl in Hk; lia | reflexivity].
  - destruct (lookup_lt_is_Some_2 ws (S k) Hk) as [w Hw].
    rewrite (take_S_r ws (S k) w Hw), foldl_app. cbn [accumulated foldl].
    rewrite IH by lia. unfold Binary64.Random.weight_at. rewrite Hw. reflexivity.
Qed.

(** X26.  In binary64, with as many weights as items and at least one, the
    scan returns an item whenever the drawn number [u * total] is strictly
    below the total as computed: the last cumulative weight is that total.
    What can make it fall off the end is a drawn number that is not below
    the total. *)
Theorem WeightedSelect_returns_below_total (A : Type) (u : float)
    (items : list A) (ws : list float) :
  length items = length ws -> ws <> [] ->
  (drawn u ws <? foldl PrimFloat.add 0%float ws)%float = true ->
  exists (k : nat) (item : A),
    Binary64.Random.WeightedSelect u items ws = Some item
    /\ items !! k = Some item /\ first_exceeded u ws k.
Proof.
  intros Hlen Hne Hbelow.
  assert (Hn : (0 < length ws)%nat) by (destruct ws; simpl; [congruence | lia]).
  assert (Hlast : accumulated ws (length ws - 1) = foldl PrimFloat.add 0%float ws).
  { rewrite accumulated_foldl by lia.
    replace (S (length ws - 1)) with (length ws) by lia.
    rewrite firstn_all. reflexivity. }
  destruct (Binary64.Random.WeightedSelect u items ws) as [item|] eqn:Hsel.
  - assert (Hsel' := Hsel).
    unfold Binary64.Random.WeightedSelect in Hsel'. cbv zeta in Hsel'.
    fold (drawn u ws) in Hsel'.
    change 0%float with (accumulated_before ws 0) in Hsel' at 1.
    apply scan_Some in Hsel' as (k & _ & Hk & Hr & Hbefore).
    rewrite Nat.sub_0_r in Hk.
    exists k, item. split_and!; auto. split; [exact Hr|].
    intros j Hj. apply Hbefore. lia.
  - exfalso.
    unfold Binary64.Random.WeightedSelect in Hsel. cbv zeta in Hsel.
    fold (drawn u ws) in Hsel.
    change 0%float with (accumulated_before ws 0) in Hsel at 1.
    rewrite scan_None in Hsel.
    specialize (Hsel (length ws - 1)%nat ltac:(lia)).
    rewrite Hlast in Hsel. congruence.
Qed.

Lemma WeightedSelect_returns_below_total_witness :
  exists (k : nat) (item : string),
    Binary64.Random.WeightedSelect 0.25%float ["a"; "b"]%string [1; 3]%float = Some item
    /\ ["a"; "b"]%string !! k = Some item
    /\ first_exceeded 0.25%float [1; 3]%float k.
Proof.
  apply (WeightedSelect_returns_below_total string 0.25%float ["a"; "b"]%string
           [1; 3]%float).
  - reflexivity.
  - discriminate.
  - vm_compute. reflexivity.
Defined.

(** ** Vectors in binary64 *)

(** X17.  In binary64 the dot product is the same whichever of the two
    vectors is the receiver, rounding, overflow and [NaN] included; for
    [Vector2] and for [Vector3]. *)
Theorem Dot_symmetric :
  (forall u v : Binary64.Vector2.t,
     Binary64.Vector2.Dot u v = Binary64.Vector2.Dot v u)
  /\ (forall u v : Binary64.Vector3.t,
        Binary64.Vector3.Dot u v = Binary64.Vector3.Dot v u).
Proof.
  split; intros u v.
  - unfold Binary64.Vector2.Dot.
    rewrite (mul_comm (Binary64.Vector2.x u)), (mul_comm (Binary64.Vector2.y u)).
    reflexivity.
  - unfold Binary64.Vector3.Dot.
    rewrite (mul_comm (Binary64.Vector3.x u)), (mul_comm (Binary64.Vector3.y u)),
      (mul_comm (Binary64.Vector3.z u)).
    reflexivity.
Qed.

Lemma div_over_zero (x s : float) (negative_zero : bool) :
  Prim2SF s = S754_zero negative_zero -> over_zero negative_zero x (x / s)%float.
Proof.
  intros Hs. unfold over_zero. split_and!.
  - rewrite ltb_spec. change (Prim2SF 0%float) with (S754_zero false).
    intros Hx. apply Prim2SF_inj. rewrite div_spec, Hs. unfold SF64div, SFdiv.
    unfold SFltb, SFcompare in Hx.
    destruct (Prim2SF x) as [sx|sx| |sx mx ex]; try destruct sx; try discriminate;
      destruct negative_zero; reflexivity.
  - rewrite ltb_spec. change (Prim2SF 0%float) with (S754_zero false).
    intros Hx. apply Prim2SF_inj. rewrite div_spec, Hs. unfold SF64div, SFdiv.
    unfold SFltb, SFcompare in Hx.
    destruct (Prim2SF x) as [sx|sx| |sx mx ex]; try destruct sx; try discriminate;
      destruct negative_zero; reflexivity.
  - intros Hx. destruct (is_zero_spec x Hx) as [sx Hsx].
    apply Prim2SF_inj. rewrite div_spec, Hs, Hsx. reflexivity.
Qed.

(** X21.  In binary64, dividing a vector by a zero gives a vector of
    infinities and [NaN]: over [+0] a positive component becomes
    [+Infinity] and a negative one [-Infinity], over [-0] the signs are
    exchanged, and a zero component becomes [NaN]; for [Vector2] and for
    [Vector3]. *)
Theorem Divide_by_zero (s : float) (negative_zero : bool) :
  Prim2SF s = S754_zero negative_zero ->
  (forall v : Binary64.Vector2.t,
     over_zero negative_zero (Binary64.Vector2.x v)
       (Binary64.Vector2.x (Binary64.Vector2.Divide v s))
     /\ over_zero negative_zero (Binary64.Vector2.y v)
          (Binary64.Vector2.y (Binary64.Vector2.Divide v s)))
  /\ (forall v : Binary64.Vector3.t,
        over_zero negative_zero (Binary64.Vector3.x v)
          (Binary64.Vector3.x (Binary64.Vector3.Divide v s))
        /\ over_zero negative_zero (Binary64.Vector3.y v)
             (Binary64.Vector3.y (Binary64.Vector3.Divide v s))
        /\ over_zero negative_zero (Binary64.Vector3.z v)
             (Binary64.Vector3.z (Binary64.Vector3.Divide v s))).
Proof.
  intros Hs. split; intros v; split_and!; apply div_over_zero; exact Hs.
Qed.

Lemma Divide_by_zero_witness :
  (forall v : Binary64.Vector2.t,
     over_zero true (Binary64.Vector2.x v)
       (Binary64.Vector2.x (Binary64.Vector2.Divide v (-0)%float))
     /\ over_zero true (Binary64.Vector2.y v)
          (Binary64.Vector2.y (Binary64.Vector2.Divide v (-0)%float)))
  /\ (forall v : Binary64.Vector3.t,
        over_zero true (Binary64.Vector3.x v)
          (Binary64.Vector3.x (Binary64.Vector3.Divide v (-0)%float))
        /\ over_zero true (Binary64.Vector3.y v)
             (Binary64.Vector3.y (Binary64.Vector3.Divide v (-0)%float))
        /\ over_zero true (Binary64.Vector3.z v)
             (Binary64.Vector3.z (Binary64.Vector3.Divide v (-0)%float))).
Proof.
  apply (Divide_by_zero (-0)%float true). reflexivity.
Defined.

(** The division the specification's design note is about. *)
Example Divide_3_0 :
  Binary64.Vector2.Divide (Binary64.Vector2.new 3 0) 0%float
  = Binary64.Vector2.new PrimFloat.infinity PrimFloat.nan
  /\ Binary64.Vector2.Divide (Binary64.Vector2.new 3 0) (-0)%float
     = Binary64.Vector2.new PrimFloat.neg_infinity PrimFloat.nan.
Proof. vm_compute. split; reflexivity. Qed.
